(** * plot_testbed: series selection and ordering for the throughput plot

    Shallow embedding of [analysis/plot_testbed.py] (Chameleon testbed
    analysis scripts).  The script reads [throughput_per_egress.csv] from a
    measurement directory, selects the columns to draw, asks plotly for a
    line chart over the time column [t] and writes [plot_testbed.html] next
    to the input. *)

From Stdlib Require Import Ascii.
From stdpp Require Import gmap strings list.

Open Scope string_scope.
Open Scope list_scope.

(** ** Tables *)

(** A cell of the table.  The script never computes on cells, they are kept
    as the text of the file; what type pandas gives a column matters to the
    chart constructor only. *)
Definition value := string.

(** A [pandas.DataFrame] as the script uses it: the named columns in header
    order, each with its values. *)
Record DataFrame := { df_columns : list (string * list value) }.

(** [df.keys()]: the column labels, in header order. *)
Definition df_keys (df : DataFrame) : list string := (df_columns df).*1.

(** ** Lines 30-32: the series to draw *)

(** The set literal [{"t", "Sum", "violations"}] of line 30. *)
Definition excluded : gset string := {["t"; "Sum"; "violations"]}.

(** Line 30: [[k for k in df.keys() if k not in {"t", "Sum", "violations"}]]. *)
Definition remaining_keys (df : DataFrame) : list string :=
  filter (λ k, k ∉ excluded) (df_keys df).

(** Line 32: [keys = ["Sum"] + ["violations"] + keys]. *)
Definition keys (df : DataFrame) : list string :=
  ["Sum"] ++ ["violations"] ++ remaining_keys df.

(** ** The ordering rule as the specification words it *)

(** Rule 3: the columns other than [t], [Sum] and [violations], in the
    order of the header. *)
Fixpoint remainder_spec (hdr : list string) : list string :=
  match hdr with
  | [] => []
  | c :: rest =>
      if String.eqb c "t" || String.eqb c "Sum" || String.eqb c "violations"
      then remainder_spec rest
      else c :: remainder_spec rest
  end.

(** Rule 2: a designated column takes a leading slot if it is present. *)
Definition leading_spec (name : string) (hdr : list string) : list string :=
  if bool_decide (name ∈ hdr) then [name] else [].

(** ColumnOrder of the specification: [Sum] and [violations] first, each
    only if present, then the remaining columns. *)
Definition ColumnOrder_spec (hdr : list string) : list string :=
  leading_spec "Sum" hdr ++ leading_spec "violations" hdr ++ remainder_spec hdr.

(** The two scenarios of the specification. *)
Definition scenario_A : DataFrame :=
  {| df_columns := [("t", ["0"; "1"]); ("A", ["10"; "11"]); ("Sum", ["30"; "33"]);
                    ("B", ["20"; "22"]); ("violations", ["0"; "1"]);
                    ("C", ["5"; "6"])] |}.

Definition scenario_B : DataFrame :=
  {| df_columns := [("t", ["0"; "1"]); ("A", ["10"; "11"]); ("B", ["20"; "22"])] |}.

(** ** Line 34: the chart *)

(** One line of the chart: its legend name (empty for a trace that has
    none) and its points. *)
Record Trace := { trace_name : string; trace_x : list value; trace_y : list value }.

(** A [plotly] figure: the column bound to the x-axis and the traces in
    drawing order. *)
Record Figure := { fig_xaxis : string; fig_data : list Trace }.

Definition trace_names (fig : Figure) : list string := trace_name <$> fig_data fig.

(** [len(df)]: the number of data rows. *)
Definition n_rows (df : DataFrame) : nat :=
  match df_columns df with
  | [] => 0
  | (_, vs) :: _ => length vs
  end.

(** ** Exceptions *)

(** What the script can see raised.  None of them is caught: an exception
    ends the run at the statement that raised it. *)
Inductive exn : Type :=
  | FileNotFoundError (p : string)   (* builtin: no file at [p] *)
  | EmptyDataError                   (* pandas.errors: no columns to parse *)
  | ParserError                      (* pandas.errors: the text is not a table *)
  | ValueError                       (* builtin; plotly raises it on its arguments *)
  | OSError (p : string).            (* builtin: [p] cannot be written *)

(** The classes of these exceptions, as Python and pandas declare them:
    [FileNotFoundError] derives from [OSError], [EmptyDataError] and
    [ParserError] derive from [ValueError]. *)
Inductive pyclass : Type :=
  | Exception_class | OSError_class | FileNotFoundError_class
  | ValueError_class | EmptyDataError_class | ParserError_class.

Global Instance pyclass_eq_dec : EqDecision pyclass.
Proof. solve_decision. Defined.

Definition class_of (e : exn) : pyclass :=
  match e with
  | FileNotFoundError _ => FileNotFoundError_class
  | EmptyDataError => EmptyDataError_class
  | ParserError => ParserError_class
  | ValueError => ValueError_class
  | OSError _ => OSError_class
  end.

(** A class with its bases, up to [Exception]. *)
Definition mro (c : pyclass) : list pyclass :=
  match c with
  | Exception_class => [Exception_class]
  | OSError_class => [OSError_class; Exception_class]
  | FileNotFoundError_class => [FileNotFoundError_class; OSError_class; Exception_class]
  | ValueError_class => [ValueError_class; Exception_class]
  | EmptyDataError_class => [EmptyDataError_class; ValueError_class; Exception_class]
  | ParserError_class => [ParserError_class; ValueError_class; Exception_class]
  end.

(** [isinstance(e, c)]. *)
Definition isinstance (e : exn) (c : pyclass) : bool :=
  bool_decide (c ∈ mro (class_of e)).

(** ** Paths *)

Definition sep : string := "/".

Fixpoint endswith_sep (s : string) : bool :=
  match s with
  | EmptyString => false
  | String c EmptyString => Ascii.eqb c "/"%char
  | String _ rest => endswith_sep rest
  end.

(** [os.path.join(a, b)] on POSIX: an absolute [b] replaces [a]; otherwise
    [b] is appended, after a separator unless [a] is empty or ends in one. *)
Definition os_path_join (a b : string) : string :=
  if String.prefix sep b then b
  else if bool_decide (a = "") || endswith_sep a then a +:+ b
  else a +:+ sep +:+ b.

(** The directory part that [os.path.join] puts before a relative name. *)
Definition joined_dir (path : string) : string :=
  if bool_decide (path = "") || endswith_sep path then path else path +:+ sep.

(** ** The world and the libraries *)

(** The files by path, each with its text, and the lines printed so far. *)
Record World := { files : gmap string string; stdout : list string }.

(** What the script takes from pandas, plotly and the operating system
    during one run.

    [parse_csv] is the parser of [pd.read_csv] on the text of a file; it
    answers a table or the exception pandas raises.  The labels of a table
    it answers are distinct, as pandas renames a repeated header name.

    [px_line] is [px.line(df, x=x, y=ys)].  The script does not decide what
    plotly draws, so only this much of it is fixed here: a name [x] that is
    no column of the table is refused with [ValueError] (plotly lets the
    names [value] and [variable] through in some calls); a figure has [x] on
    its x-axis; a trace is named after an entry of [ys] or has no name (when
    an entry of [ys] is no column plotly takes the list as one vector of
    data and draws one trace without a name, if it draws at all); and when
    the entries of [ys] are distinct columns of a table with at least one
    row, the traces are those entries, in their order.  Whether a figure is
    built at all also depends on the cells (columns of different types are
    refused).

    [to_html] is the document written for a figure in this run: plotly puts
    a fresh identifier into every document, so another run has another
    [to_html].

    [write_text] opens a path for writing and writes a text: when it reports
    no error the path holds exactly that text; what it leaves behind when it
    fails is up to the operating system. *)
Record Libraries := {
  parse_csv : string → exn + DataFrame;
  parse_csv_unique : ∀ txt df, parse_csv txt = inr df → NoDup (df_keys df);
  px_line : DataFrame → string → list string → exn + Figure;
  px_line_x : ∀ df x ys,
    x ∉ df_keys df → x ≠ "value" → x ≠ "variable" → px_line df x ys = inl ValueError;
  px_line_xaxis : ∀ df x ys fig, px_line df x ys = inr fig → fig_xaxis fig = x;
  px_line_names : ∀ df x ys fig n,
    px_line df x ys = inr fig → n ∈ trace_names fig → n ∈ ys ∨ n = "";
  px_line_wide : ∀ df x ys fig,
    px_line df x ys = inr fig →
    ys ≠ [] → NoDup ys → x ∉ ys → Forall (λ y, y ∈ df_keys df) ys → n_rows df ≠ 0 →
    trace_names fig = ys;
  to_html : Figure → string;
  write_text : gmap string string → string → string → gmap string string * option exn;
  write_text_ok : ∀ fs p s fs', write_text fs p s = (fs', None) → fs' = <[p := s]> fs
}.

(** Statements run in the world and end with a value or with an exception. *)
Definition M (A : Type) : Type := World → World * (exn + A).

Definition bind {A B} (m : M A) (k : A → M B) : M B :=
  λ w, match m w with
       | (w', inr a) => k a w'
       | (w', inl e) => (w', inl e)
       end.
Definition lift {A} (r : exn + A) : M A := λ w, (w, r).

Notation "'let*' x ':=' m 'in' k" := (bind m (λ x, k))
  (at level 10, x name, m at level 100, k at level 200).

(** [pd.read_csv(file, sep=",")]. *)
Definition read_csv (L : Libraries) (file : string) : M DataFrame :=
  λ w, match files w !! file with
       | None => (w, inl (FileNotFoundError file))
       | Some txt => (w, parse_csv L txt)
       end.

(** [fig.write_html(plot_file)]: the whole document is built, then written. *)
Definition write_html (L : Libraries) (fig : Figure) (plot_file : string) : M unit :=
  λ w, match write_text L (files w) plot_file (to_html L fig) with
       | (fs, None) => ({| files := fs; stdout := stdout w |}, inr tt)
       | (fs, Some e) => ({| files := fs; stdout := stdout w |}, inl e)
       end.

(** [print(line)]. *)
Definition print (line : string) : M unit :=
  λ w, ({| files := files w; stdout := stdout w ++ [line] |}, inr tt).

(** ** The script *)

(** Line 26: [file = os.path.join(path, "throughput_per_egress.csv")]. *)
Definition file (path : string) : string :=
  os_path_join path "throughput_per_egress.csv".

(** Line 27: [plot_file = os.path.join(path, "plot_testbed.html")]. *)
Definition plot_file (path : string) : string :=
  os_path_join path "plot_testbed.html".

(** Lines 26-36, for the measurement directory [path]. *)
Definition plot (L : Libraries) (path : string) : M unit :=
  let* df := read_csv L (file path) in
  let keys := keys df in
  let* fig := lift (px_line L df "t" keys) in
  let* _ := write_html L fig (plot_file path) in
  print ("Written plot to " +:+ plot_file path).

(** Lines 25-36.  [select_measurement] is the project's own helper from
    [utils]; the script only takes the directory it answers. *)
Definition main (L : Libraries) (select_measurement : string → M string) : M unit :=
  let* path := select_measurement "throughput_per_egress.csv" in
  plot L path.

(** The figure of a run, up to the write: lines 26-34 on the files [fs]. *)
Definition chart (L : Libraries) (path : string) (fs : gmap string string) : exn + Figure :=
  match read_csv L (file path) {| files := fs; stdout := [] |} with
  | (_, inr df) => px_line L df "t" (keys df)
  | (_, inl e) => inl e
  end.

(** ** A small instance of the libraries

    A parser for plain comma-separated text, a chart constructor that draws
    as plotly does on tables of numbers, a serialiser that lists the trace
    names, and a disk on which some paths cannot be written.  The theorems
    below hold for every [Libraries]; this instance shows the interface
    inhabited and evaluates the script on concrete files. *)

(** [df[k]]: the values of the first column labelled [k]. *)
Definition column (df : DataFrame) (k : string) : option (list value) :=
  snd <$> find (λ c, bool_decide (c.1 = k)) (df_columns df).

(** [x] must name a column.  When every entry of [ys] names a column there
    is one trace per entry, named after it, unless the table has no row,
    and then there is no trace.  Otherwise [ys] is one vector of data: it
    must have as many entries as the table has rows, and gives one trace
    without a name. *)
Definition plotly_line (df : DataFrame) (x : string) (ys : list string) : exn + Figure :=
  match column df x with
  | None => inl ValueError
  | Some xs =>
      match mapM (λ y, pair y <$> column df y) ys with
      | Some cols =>
          inr {| fig_xaxis := x;
                 fig_data :=
                   if bool_decide (n_rows df = 0) then []
                   else (λ c, {| trace_name := c.1; trace_x := xs; trace_y := c.2 |})
                          <$> cols |}
      | None =>
          if bool_decide (length ys = n_rows df)
          then inr {| fig_xaxis := x;
                      fig_data := [{| trace_name := ""; trace_x := xs; trace_y := ys |}] |}
          else inl ValueError
      end
  end.

Fixpoint split_on (c : ascii) (s : string) : list string :=
  match s with
  | EmptyString => [EmptyString]
  | String a rest =>
      if Ascii.eqb a c then EmptyString :: split_on c rest
      else match split_on c rest with
           | [] => [String a EmptyString]
           | f :: fs => String a f :: fs
           end
  end.

Definition newline : ascii := ascii_of_nat 10.

Fixpoint columns_from (i : nat) (hdr : list string) (rows : list (list value))
  : list (string * list value) :=
  match hdr with
  | [] => []
  | k :: rest => (k, (λ r, default "" (r !! i)) <$> rows) :: columns_from (S i) rest rows
  end.

(** The parser takes the texts whose lines all have as many fields as the
    header, the header names being distinct; a text it refuses may be one
    that pandas reads. *)
Definition simple_csv (txt : string) : exn + DataFrame :=
  match filter (λ l, l ≠ "") (split_on newline txt) with
  | [] => inl EmptyDataError
  | h :: lines =>
      let hdr := split_on "," h in
      let rows := split_on "," <$> lines in
      if bool_decide (NoDup hdr ∧ Forall (λ r, length r = length hdr) rows)
      then inr {| df_columns := columns_from 0 hdr rows |}
      else inl ParserError
  end.

Definition simple_html (fig : Figure) : string :=
  "<html>" +:+ fig_xaxis fig +:+ ":" +:+ String.concat "," (trace_names fig) +:+ "</html>".

(** The same document, with the identifier [id] in it. *)
Definition tagged_html (id : string) (fig : Figure) : string :=
  "<html id=" +:+ id +:+ ">" +:+ fig_xaxis fig +:+ ":"
  +:+ String.concat "," (trace_names fig) +:+ "</html>".

(** A write that is refused on the paths of [readonly] and leaves the files
    as they were. *)
Definition refusing_write (readonly : gset string)
    (fs : gmap string string) (p s : string) : gmap string string * option exn :=
  if bool_decide (p ∈ readonly) then (fs, Some (OSError p)) else (<[p := s]> fs, None).


Lemma columns_from_keys i hdr rows : (columns_from i hdr rows).*1 = hdr.
Proof.
  revert i. induction hdr as [|k rest IH]; intros i; simpl; [done|].
  by rewrite IH.
Qed.

Lemma simple_csv_unique txt df : simple_csv txt = inr df → NoDup (df_keys df).
Proof.
  unfold simple_csv. destruct (filter _ _) as [|h lines]; [done|].
  simpl. case_bool_decide as Hok; [|done].
  intros [= <-]. unfold df_keys. simpl. rewrite columns_from_keys. apply Hok.
Qed.

Lemma column_is_Some df k : is_Some (column df k) ↔ k ∈ df_keys df.
Proof.
  unfold column, df_keys. rewrite fmap_is_Some.
  induction (df_columns df) as [|[k' vs] cols IH]; simpl.
  - split; [by intros [? ?]|by intros ?%elem_of_nil].
  - case_bool_decide as Hk; simpl in Hk.
    + subst k'. split; [intros _; by left|by eexists].
    + rewrite IH, elem_of_cons. split; [by right|]. by intros [->|?].
Qed.

Lemma column_None df k : column df k = None ↔ k ∉ df_keys df.
Proof. rewrite <- column_is_Some, eq_None_not_Some. tauto. Qed.

Lemma labelled_columns_names df ys cols :
  mapM (λ y, pair y <$> column df y) ys = Some cols → cols.*1 = ys.
Proof.
  intros H%mapM_Some. induction H as [|y c ys cols Hy _ IH]; [done|].
  apply fmap_Some in Hy as (vs & Hvs & ->).
  rewrite fmap_cons. simpl. by f_equal.
Qed.

Lemma labelled_columns_is_Some df ys :
  Forall (λ y, y ∈ df_keys df) ys →
  is_Some (mapM (λ y, pair y <$> column df y) ys).
Proof.
  intros Hys. apply mapM_is_Some. eapply Forall_impl; [exact Hys|].
  intros y Hy. simpl. apply fmap_is_Some. by apply column_is_Some.
Qed.

Lemma plotly_line_names df x ys fig :
  plotly_line df x ys = inr fig →
  trace_names fig = [] ∨ trace_names fig = ys ∨ trace_names fig = [""].
Proof.
  unfold plotly_line. destruct (column df x) as [xs|]; [|done].
  destruct (mapM _ ys) as [cols|] eqn:Hys.
  - intros [= <-]. unfold trace_names. simpl. case_bool_decide; [by left|].
    right. left. rewrite <- list_fmap_compose.
    by apply labelled_columns_names in Hys.
  - case_bool_decide; [|done]. intros [= <-]. by right; right.
Qed.

Lemma plotly_line_x df x ys :
  x ∉ df_keys df → x ≠ "value" → x ≠ "variable" → plotly_line df x ys = inl ValueError.
Proof. intros Hx%column_None _ _. unfold plotly_line. by rewrite Hx. Qed.

Lemma plotly_line_xaxis df x ys fig : plotly_line df x ys = inr fig → fig_xaxis fig = x.
Proof.
  unfold plotly_line. destruct (column df x) as [xs|]; [|done].
  destruct (mapM _ ys) as [cols|]; [by intros [= <-]|].
  case_bool_decide; [|done]. by intros [= <-].
Qed.

Lemma plotly_line_trace_names df x ys fig n :
  plotly_line df x ys = inr fig → n ∈ trace_names fig → n ∈ ys ∨ n = "".
Proof.
  intros H%plotly_line_names. destruct H as [H|[H|H]]; rewrite H.
  - by intros ?%elem_of_nil.
  - by left.
  - intros Hn%list_elem_of_singleton. by right.
Qed.

Lemma plotly_line_wide df x ys fig :
  plotly_line df x ys = inr fig →
  ys ≠ [] → NoDup ys → x ∉ ys → Forall (λ y, y ∈ df_keys df) ys → n_rows df ≠ 0 →
  trace_names fig = ys.
Proof.
  intros Hfig _ _ _ Hys Hrows. unfold plotly_line in Hfig.
  destruct (column df x) as [xs|]; [|done].
  destruct (labelled_columns_is_Some df ys Hys) as [cols Hcols].
  rewrite Hcols in Hfig. injection Hfig as <-.
  unfold trace_names. simpl. rewrite bool_decide_eq_false_2 by done.
  rewrite <- list_fmap_compose. by apply labelled_columns_names in Hcols.
Qed.

Lemma refusing_write_ok readonly fs p s fs' :
  refusing_write readonly fs p s = (fs', None) → fs' = <[p := s]> fs.
Proof. unfold refusing_write. case_bool_decide; congruence. Qed.


(** The instance, by its serialiser and its disk. *)
Definition libs_of (html : Figure → string)
    (write : gmap string string → string → string → gmap string string * option exn)
    (write_ok : ∀ fs p s fs', write fs p s = (fs', None) → fs' = <[p := s]> fs)
  : Libraries :=
  {| parse_csv := simple_csv;
     parse_csv_unique := simple_csv_unique;
     px_line := plotly_line;
     px_line_x := plotly_line_x;
     px_line_xaxis := plotly_line_xaxis;
     px_line_names := plotly_line_trace_names;
     px_line_wide := plotly_line_wide;
     to_html := html;
     write_text := write;
     write_text_ok := write_ok |}.

Definition simple_libs (readonly : gset string) : Libraries :=
  libs_of simple_html (refusing_write readonly) (refusing_write_ok readonly).


(** The libraries of another run: the documents carry [id]. *)
Definition rerun_libs (id : string) : Libraries :=
  libs_of (tagged_html id) (refusing_write ∅) (refusing_write_ok ∅).

(** The text of the file of scenario B, and a file without a [t] column. *)
Definition text_B : string :=
  "t,A,B" +:+ String newline "0,10,20" +:+ String newline "1,11,22" +:+ String newline "".

Definition text_A : string :=
  "t,A,Sum,B,violations,C" +:+ String newline "0,10,30,20,0,5"
  +:+ String newline "1,11,33,22,1,6" +:+ String newline "".

Definition text_no_t : string :=
  "Sum,violations,A" +:+ String newline "30,0,10" +:+ String newline "".

Definition world_of (txt : string) : World :=
  {| files := {[ "run/throughput_per_egress.csv" := txt ]}; stdout := [] |}.


(** A table with the three designated columns and no row, and the table of
    scenario B with four rows. *)
Definition header_only : DataFrame :=
  {| df_columns := [("t", []); ("Sum", []); ("violations", []); ("A", [])] |}.

Definition scenario_B_four_rows : DataFrame :=
  {| df_columns := [("t", ["0"; "1"; "2"; "3"]); ("A", ["10"; "11"; "12"; "13"]);
                    ("B", ["20"; "22"; "24"; "26"])] |}.

(** * The scenarios, evaluated *)

Example simple_csv_text_A : simple_csv text_A = inr scenario_A.
Proof. vm_compute. reflexivity. Qed.

Example simple_csv_text_B : simple_csv text_B = inr scenario_B.
Proof. vm_compute. reflexivity. Qed.

Example os_path_join_examples :
  os_path_join "run" "plot_testbed.html" = "run/plot_testbed.html" ∧
  os_path_join "run/" "plot_testbed.html" = "run/plot_testbed.html" ∧
  os_path_join "" "plot_testbed.html" = "plot_testbed.html" ∧
  os_path_join "run" "/tmp/x" = "/tmp/x".
Proof. by vm_compute. Qed.

(** Scenario A runs to the end. *)
Example plot_text_A :
  (plot (simple_libs ∅) "run" (world_of text_A)).2 = inr tt ∧
  stdout (plot (simple_libs ∅) "run" (world_of text_A)).1
    = ["Written plot to run/plot_testbed.html"].
Proof. by vm_compute. Qed.

(** Scenario B with its two rows does not: four names are no vector of data
    for two rows. *)
Example plot_text_B :
  plot (simple_libs ∅) "run" (world_of text_B) = (world_of text_B, inl ValueError).
Proof. by vm_compute. Qed.

(** * Properties of the series selection *)

Lemma elem_of_excluded k :
  k ∈ excluded ↔ k = "t" ∨ k = "Sum" ∨ k = "violations".
Proof.
  unfold excluded. rewrite !elem_of_union, !elem_of_singleton. tauto.
Qed.

Lemma designated_eqb k :
  String.eqb k "t" || String.eqb k "Sum" || String.eqb k "violations" = true
  ↔ k ∈ excluded.
Proof.
  rewrite elem_of_excluded, !orb_true_iff, !String.eqb_eq. tauto.
Qed.

(** The comprehension of line 30 computes rule 3 of the specification. *)
Lemma remaining_keys_spec df : remaining_keys df = remainder_spec (df_keys df).
Proof.
  unfold remaining_keys. induction (df_keys df) as [|c rest IH]; [done|].
  rewrite filter_cons. simpl.
  destruct (String.eqb c "t" || String.eqb c "Sum" || String.eqb c "violations")
    eqn:Hc.
  - apply designated_eqb in Hc. by rewrite decide_False by (intros ?; done).
  - assert (c ∉ excluded) as Hn.
    { intros Hin. apply designated_eqb in Hin. congruence. }
    rewrite decide_True by done. by rewrite IH.
Qed.

Lemma elem_of_remaining_keys df k :
  k ∈ remaining_keys df ↔ k ∈ df_keys df ∧ k ∉ excluded.
Proof. unfold remaining_keys. rewrite list_elem_of_filter. tauto. Qed.

Lemma remaining_keys_sublist df : remaining_keys df `sublist_of` df_keys df.
Proof. apply sublist_filter. Qed.

Lemma elem_of_keys df k :
  k ∈ keys df ↔ k = "Sum" ∨ k = "violations" ∨ (k ∈ df_keys df ∧ k ∉ excluded).
Proof.
  unfold keys. rewrite !elem_of_app, !list_elem_of_singleton, elem_of_remaining_keys.
  tauto.
Qed.

Lemma elem_of_remainder_spec hdr k :
  k ∈ remainder_spec hdr → k ∈ hdr ∧ k ∉ excluded.
Proof.
  induction hdr as [|c rest IH]; simpl; [by intros ?%elem_of_nil|].
  destruct (String.eqb c "t" || String.eqb c "Sum" || String.eqb c "violations")
    eqn:Hc.
  - intros [? ?]%IH. split; [by right|done].
  - intros [->|Hin]%elem_of_cons.
    + split; [by left|]. intros Hin%designated_eqb. congruence.
    + destruct (IH Hin). split; [by right|done].
Qed.

(** The ColumnOrder of the specification only names columns of the table. *)
Lemma elem_of_ColumnOrder_spec hdr k : k ∈ ColumnOrder_spec hdr → k ∈ hdr.
Proof.
  unfold ColumnOrder_spec, leading_spec. rewrite !elem_of_app.
  intros [H|[H|H]].
  - case_bool_decide; [|by apply elem_of_nil in H].
    by apply list_elem_of_singleton in H as ->.
  - case_bool_decide; [|by apply elem_of_nil in H].
    by apply list_elem_of_singleton in H as ->.
  - by apply elem_of_remainder_spec in H as [? _].
Qed.

(** The three excluded labels of a header without repetition. *)
Lemma excluded_columns_length hdr :
  NoDup hdr → "t" ∈ hdr → "Sum" ∈ hdr → "violations" ∈ hdr →
  length (filter (λ k : string, ¬ (k ∉ excluded)) hdr) = 3.
Proof.
  intros Hnd Ht Hs Hv.
  assert (filter (λ k : string, ¬ (k ∉ excluded)) hdr ≡ₚ ["t"; "Sum"; "violations"]) as ->; [|done].
  apply NoDup_Permutation.
  - by apply NoDup_filter.
  - apply (bool_decide_unpack _). vm_compute. exact I.
  - intros k. rewrite list_elem_of_filter.
    rewrite !elem_of_cons, elem_of_nil. split.
    + intros [Hk _]. apply dec_stable in Hk. apply elem_of_excluded in Hk. tauto.
    + intros Hk. assert (k ∈ excluded) by (apply elem_of_excluded; tauto).
      split; [tauto|]. destruct Hk as [->|[->|[->|[]]]]; done.
Qed.

Lemma remaining_keys_length df :
  NoDup (df_keys df) →
  "t" ∈ df_keys df → "Sum" ∈ df_keys df → "violations" ∈ df_keys df →
  length (remaining_keys df) + 3 = length (df_keys df).
Proof.
  intros Hnd Ht Hs Hv. unfold remaining_keys.
  rewrite <- (excluded_columns_length (df_keys df)) by done.
  rewrite <- length_app. apply Permutation_length, filter_app_complement.
Qed.

(** * The series list against the ordering rule *)

Lemma keys_unfold df :
  keys df = "Sum" :: "violations" :: remainder_spec (df_keys df).
Proof. unfold keys. by rewrite remaining_keys_spec. Qed.

Lemma designated_in_keys df : "Sum" ∈ keys df ∧ "violations" ∈ keys df.
Proof. rewrite !elem_of_keys. tauto. Qed.

(** C1.  For a table whose header has the columns [t], [Sum] and
    [violations], the series list is [Sum], [violations] and then the other
    columns (neither [t], [Sum] nor [violations]) in header order; this is
    the ColumnOrder of the specification, and for the header
    [t,A,Sum,B,violations,C] it is [Sum, violations, A, B, C]. *)
Theorem keys_designated_first (df : DataFrame) :
  "t" ∈ df_keys df → "Sum" ∈ df_keys df → "violations" ∈ df_keys df →
  keys df = "Sum" :: "violations" :: remainder_spec (df_keys df) ∧
  keys df = ColumnOrder_spec (df_keys df) ∧
  drop 2 (keys df) `sublist_of` df_keys df ∧
  (df_keys df = ["t"; "A"; "Sum"; "B"; "violations"; "C"] →
   keys df = ["Sum"; "violations"; "A"; "B"; "C"]).
Proof.
  intros _ Hs Hv. split; [apply keys_unfold|]. split; [|split].
  - rewrite keys_unfold. unfold ColumnOrder_spec, leading_spec.
    by rewrite !bool_decide_eq_true_2.
  - unfold keys. simpl. apply remaining_keys_sublist.
  - intros Hhdr. rewrite keys_unfold, Hhdr. reflexivity.
Qed.

Lemma keys_designated_first_scenario_A :
  keys scenario_A = ["Sum"; "violations"; "A"; "B"; "C"] ∧
  keys scenario_A = ColumnOrder_spec (df_keys scenario_A).
Proof.
  assert ("t" ∈ df_keys scenario_A) as Ht by compute_done.
  assert ("Sum" ∈ df_keys scenario_A) as Hs by compute_done.
  assert ("violations" ∈ df_keys scenario_A) as Hv by compute_done.
  destruct (keys_designated_first scenario_A Ht Hs Hv) as (_ & Hspec & _ & HA).
  split; [apply HA; reflexivity|exact Hspec].
Defined.

(** C2, as the specification states it, fails on the table of scenario B:
    the series list is not [A, B], the two designated names lead it although
    the table has neither column. *)
Lemma keys_scenario_B_not_graceful :
  df_keys scenario_B = ["t"; "A"; "B"] ∧
  ColumnOrder_spec (df_keys scenario_B) = ["A"; "B"] ∧
  keys scenario_B = ["Sum"; "violations"; "A"; "B"] ∧
  keys scenario_B ≠ ["A"; "B"].
Proof. repeat split; try reflexivity. vm_compute. discriminate. Qed.

(** C2, amended.  For a table in which [Sum] or [violations] is absent the
    series list is still [Sum], [violations] and then the other columns in
    header order: both names take the leading slots whether present or not,
    so the list differs from the ColumnOrder of the specification; for the
    header [t,A,B] it is [Sum, violations, A, B]. *)
Theorem keys_designated_absent (df : DataFrame) :
  "Sum" ∉ df_keys df ∨ "violations" ∉ df_keys df →
  keys df = "Sum" :: "violations" :: remainder_spec (df_keys df) ∧
  keys df ≠ ColumnOrder_spec (df_keys df) ∧
  (df_keys df = ["t"; "A"; "B"] → keys df = ["Sum"; "violations"; "A"; "B"]).
Proof.
  intros Habs. split; [apply keys_unfold|]. split.
  - intros Heq. destruct (designated_in_keys df) as [Hs Hv].
    rewrite Heq in Hs, Hv.
    apply elem_of_ColumnOrder_spec in Hs, Hv. tauto.
  - intros Hhdr. rewrite keys_unfold, Hhdr. reflexivity.
Qed.

Lemma keys_designated_absent_scenario_B :
  keys scenario_B = ["Sum"; "violations"; "A"; "B"] ∧
  keys scenario_B ≠ ColumnOrder_spec (df_keys scenario_B).
Proof.
  assert ("Sum" ∉ df_keys scenario_B ∨ "violations" ∉ df_keys scenario_B) as Habs
    by (left; compute_done).
  destruct (keys_designated_absent scenario_B Habs) as (_ & Hne & HB).
  split; [apply HB; reflexivity|exact Hne].
Defined.

Lemma keys_are_columns (df : DataFrame) :
  "Sum" ∈ df_keys df → "violations" ∈ df_keys df →
  Forall (λ y, y ∈ df_keys df) (keys df).
Proof.
  intros Hs Hv. apply Forall_forall. intros k Hk.
  apply elem_of_keys in Hk as [->|[->|[Hk _]]]; done.
Qed.

Lemma keys_distinct (df : DataFrame) : NoDup (df_keys df) → NoDup (keys df).
Proof.
  intros Hnd. unfold keys. simpl. rewrite !NoDup_cons. repeat split.
  - rewrite elem_of_cons, elem_of_remaining_keys.
    intros [?|[_ Hn]]; [done|]. apply Hn, elem_of_excluded. tauto.
  - rewrite elem_of_remaining_keys.
    intros [_ Hn]. apply Hn, elem_of_excluded. tauto.
  - by apply NoDup_filter.
Qed.

Lemma t_not_in_keys (df : DataFrame) : "t" ∉ keys df.
Proof.
  rewrite elem_of_keys. intros [?|[?|[_ Hn]]]; [done|done|].
  apply Hn, elem_of_excluded. by left.
Qed.

(** C3, as stated, fails on two tables.  The table with the header
    [t,Sum,violations,A] and no row gives a chart without any trace, for
    four columns.  The table of scenario B with four rows gives a chart
    with one trace, for three columns: its four series names are taken as
    one vector of data. *)
Lemma trace_count_not_columns_less_one :
  (∃ fig, px_line (simple_libs ∅) header_only "t" (keys header_only) = inr fig ∧
          length (fig_data fig) = 0 ∧ length (df_keys header_only) - 1 = 3) ∧
  (∃ fig, px_line (simple_libs ∅) scenario_B_four_rows "t" (keys scenario_B_four_rows)
          = inr fig ∧
          length (fig_data fig) = 1 ∧ length (df_keys scenario_B_four_rows) - 1 = 2).
Proof. split; eexists; (split; [by vm_compute|done]). Qed.

(** C3, amended.  For a table whose header has [t], [Sum] and [violations]
    (labels distinct, as the parser returns them) and that has at least one
    row, the number of series names is the number of columns minus one, and
    the chart built from them has that many traces, named after them. *)
Theorem trace_count (L : Libraries) (df : DataFrame) (fig : Figure) :
  NoDup (df_keys df) →
  "t" ∈ df_keys df → "Sum" ∈ df_keys df → "violations" ∈ df_keys df →
  n_rows df ≠ 0 →
  px_line L df "t" (keys df) = inr fig →
  length (keys df) = length (df_keys df) - 1 ∧
  trace_names fig = keys df ∧
  length (fig_data fig) = length (df_keys df) - 1.
Proof.
  intros Hnd Ht Hs Hv Hrows Hfig.
  assert (length (keys df) = length (df_keys df) - 1) as Hlen.
  { unfold keys. simpl. pose proof (remaining_keys_length df Hnd Ht Hs Hv). lia. }
  assert (trace_names fig = keys df) as Hnames.
  { apply (px_line_wide L df "t"); [done|done| | | |done].
    - by apply keys_distinct.
    - apply t_not_in_keys.
    - by apply keys_are_columns. }
  split; [done|]. split; [done|].
  rewrite <- Hlen, <- Hnames. unfold trace_names. by rewrite length_fmap.
Qed.

Lemma trace_count_scenario_A :
  ∃ fig, px_line (simple_libs ∅) scenario_A "t" (keys scenario_A) = inr fig ∧
         trace_names fig = ["Sum"; "violations"; "A"; "B"; "C"] ∧
         length (fig_data fig) = 5.
Proof.
  assert (NoDup (df_keys scenario_A)) as Hnd by compute_done.
  assert ("t" ∈ df_keys scenario_A) as Ht by compute_done.
  assert ("Sum" ∈ df_keys scenario_A) as Hs by compute_done.
  assert ("violations" ∈ df_keys scenario_A) as Hv by compute_done.
  assert (n_rows scenario_A ≠ 0) as Hrows by compute_done.
  destruct (px_line (simple_libs ∅) scenario_A "t" (keys scenario_A))
    as [e|fig] eqn:Hfig; [by vm_compute in Hfig|].
  exists fig. split; [done|].
  exact (proj2 (trace_count _ _ _ Hnd Ht Hs Hv Hrows Hfig)).
Defined.

(** C4.  [t] is never among the series names; whenever a chart is built,
    [t] is on its x-axis and none of its traces is named [t]. *)
Theorem t_not_plotted (df : DataFrame) :
  ("t" ∉ keys df) ∧
  (∀ L fig, px_line L df "t" (keys df) = inr fig →
            fig_xaxis fig = "t" ∧ "t" ∉ trace_names fig).
Proof.
  split; [apply t_not_in_keys|]. intros L fig Hfig. split.
  - by apply px_line_xaxis in Hfig.
  - intros Ht. destruct (px_line_names L _ _ _ _ _ Hfig Ht) as [Hk|?]; [|done].
    by apply t_not_in_keys in Hk.
Qed.

(** C5.  The series list has no repeated name, the labels of the table
    being distinct (the parser renames a repeated header name). *)
Theorem keys_NoDup (df : DataFrame) : NoDup (df_keys df) → NoDup (keys df).
Proof.
  intros Hnd. unfold keys. simpl. rewrite !NoDup_cons. repeat split.
  - rewrite elem_of_cons, elem_of_remaining_keys.
    intros [?|[_ Hn]]; [done|]. apply Hn, elem_of_excluded. tauto.
  - rewrite elem_of_remaining_keys.
    intros [_ Hn]. apply Hn, elem_of_excluded. tauto.
  - by apply NoDup_filter.
Qed.

Lemma keys_NoDup_scenario_A : NoDup (keys scenario_A).
Proof.
  assert (NoDup (df_keys scenario_A)) as Hnd by compute_done.
  exact (keys_NoDup scenario_A Hnd).
Defined.

(** C10.  Whatever the header, the series list handed to the chart
    constructor starts with the literals [Sum] and [violations], in that
    order, and goes on with the comprehension of line 30; the two names are
    there even for a table without any column. *)
Theorem keys_prepended_unconditionally (df : DataFrame) :
  take 2 (keys df) = ["Sum"; "violations"] ∧
  drop 2 (keys df) = remaining_keys df ∧
  (∀ k, k ∈ drop 2 (keys df) ↔ k ∈ df_keys df ∧ k ∉ excluded) ∧
  keys {| df_columns := [] |} = ["Sum"; "violations"].
Proof.
  split; [done|]. split; [done|]. split; [|done].
  intros k. simpl. apply elem_of_remaining_keys.
Qed.

(** * The run of the script *)

Lemma string_app_assoc (a b c : string) : (a +:+ b) +:+ c = a +:+ b +:+ c.
Proof.
  induction a as [|x a IH]; [done|].
  change (String x ((a +:+ b) +:+ c) = String x (a +:+ b +:+ c)). by rewrite IH.
Qed.

Lemma os_path_join_relative path name :
  String.prefix sep name = false → os_path_join path name = joined_dir path +:+ name.
Proof.
  intros Hrel. unfold os_path_join, joined_dir. rewrite Hrel.
  destruct (bool_decide (path = "") || endswith_sep path); [done|].
  by rewrite string_app_assoc.
Qed.

Lemma file_in_dir path : file path = joined_dir path +:+ "throughput_per_egress.csv".
Proof. by apply os_path_join_relative. Qed.

Lemma plot_file_in_dir path : plot_file path = joined_dir path +:+ "plot_testbed.html".
Proof. by apply os_path_join_relative. Qed.

(** The output is never the input. *)
Lemma plot_file_not_file path : plot_file path ≠ file path.
Proof.
  rewrite plot_file_in_dir, file_in_dir. intros H.
  apply (inj (String.app _)) in H. discriminate.
Qed.

Lemma read_csv_world L f w w' r : read_csv L f w = (w', r) → w' = w.
Proof. unfold read_csv. repeat case_match; congruence. Qed.

Lemma read_csv_inr L f w w' df :
  read_csv L f w = (w', inr df) ↔
  w' = w ∧ ∃ txt, files w !! f = Some txt ∧ parse_csv L txt = inr df.
Proof.
  unfold read_csv. split.
  - destruct (files w !! f) as [txt|]; intros [= <- Hdf]; eauto.
  - intros [-> (txt & -> & ->)]. done.
Qed.

Lemma read_csv_missing L f w :
  files w !! f = None → read_csv L f w = (w, inl (FileNotFoundError f)).
Proof. intros H. unfold read_csv. by rewrite H. Qed.

Lemma read_csv_files L f w :
  read_csv L f w = (w, (read_csv L f {| files := files w; stdout := [] |}).2).
Proof. unfold read_csv. simpl. by destruct (files w !! f). Qed.

(** The run in one equation: the statements up to the chart only read, the
    write is the single statement that touches a file, the message comes
    last. *)
Lemma plot_unfold L path w :
  plot L path w =
  match chart L path (files w) with
  | inl e => (w, inl e)
  | inr fig =>
      match write_text L (files w) (plot_file path) (to_html L fig) with
      | (fs, None) =>
          ({| files := fs;
              stdout := stdout w ++ ["Written plot to " +:+ plot_file path] |}, inr tt)
      | (fs, Some e) => ({| files := fs; stdout := stdout w |}, inl e)
      end
  end.
Proof.
  unfold plot, chart, bind, lift, write_html, print.
  rewrite (read_csv_files L (file path) w).
  destruct (read_csv L (file path) {| files := files w; stdout := [] |}) as [w0 [e|df]];
    simpl; [done|].
  destruct (px_line L df "t" (keys df)) as [e|fig]; [done|].
  destruct (write_text L (files w) (plot_file path) (to_html L fig)) as [fs [e|]]; done.
Qed.

Lemma chart_inr L path fs fig :
  chart L path fs = inr fig ↔
  ∃ txt df, fs !! file path = Some txt ∧ parse_csv L txt = inr df ∧
            px_line L df "t" (keys df) = inr fig.
Proof.
  unfold chart, read_csv. cbn [files].
  destruct (fs !! file path) as [txt|].
  - destruct (parse_csv L txt) as [e|df] eqn:Hdf.
    + split; [done|]. intros (txt' & df' & [= <-] & Hdf' & _). congruence.
    + split; [eauto|]. intros (txt' & df' & [= <-] & Hdf' & Hfig). congruence.
  - split; [done|]. by intros (txt' & df' & ? & _).
Qed.

(** A successful run: what was read, what was written where, what was
    printed. *)
Lemma plot_inr L path w w' :
  plot L path w = (w', inr tt) →
  ∃ fig, chart L path (files w) = inr fig ∧
         files w' = <[plot_file path := to_html L fig]> (files w) ∧
         stdout w' = stdout w ++ ["Written plot to " +:+ plot_file path].
Proof.
  rewrite plot_unfold. destruct (chart L path (files w)) as [e|fig]; [done|].
  destruct (write_text L (files w) (plot_file path) (to_html L fig))
    as [fs [e|]] eqn:Hw; [done|].
  intros [= <-]. apply write_text_ok in Hw as ->. by exists fig.
Qed.

(** Writing the plot does not change what the next run reads. *)
Lemma chart_after_write L path fs html :
  chart L path (<[plot_file path := html]> fs) = chart L path fs.
Proof.
  unfold chart, read_csv. cbn [files].
  rewrite lookup_insert_ne by apply plot_file_not_file.
  by destruct (fs !! file path).
Qed.

(** The figure depends on the parser and on the chart constructor only. *)
Lemma chart_same_libraries L L' path fs :
  parse_csv L' = parse_csv L → px_line L' = px_line L →
  chart L' path fs = chart L path fs.
Proof. intros Hp Hx. unfold chart, read_csv. by rewrite Hp, Hx. Qed.

(** A run that fails before the write leaves the world as it was. *)
Lemma plot_fails_before_write L path w e :
  chart L path (files w) = inl e → plot L path w = (w, inl e).
Proof. intros H. by rewrite plot_unfold, H. Qed.

(** A selected directory is handed to lines 26-36 unchanged. *)
Lemma main_inr L select_measurement w w' :
  main L select_measurement w = (w', inr tt) →
  ∃ path w0, select_measurement "throughput_per_egress.csv" w = (w0, inr path) ∧
             plot L path w0 = (w', inr tt).
Proof.
  unfold main, bind.
  destruct (select_measurement _ w) as [w0 [e|path]]; [done|]. eauto.
Qed.

(** C6, as stated, fails on a file that holds the table [Sum,violations,A]:
    the text parses, and the run ends with the [ValueError] of the chart
    constructor, whereas a missing file ends it with [FileNotFoundError];
    neither exception is of the class of the other. *)
Lemma missing_t_not_ParseError :
  (∃ df, simple_csv text_no_t = inr df ∧ "t" ∉ df_keys df) ∧
  (plot (simple_libs ∅) "run" (world_of text_no_t)).2 = inl ValueError ∧
  (plot (simple_libs ∅) "run" {| files := ∅; stdout := [] |}).2
    = inl (FileNotFoundError "run/throughput_per_egress.csv") ∧
  isinstance ValueError FileNotFoundError_class = false ∧
  isinstance (FileNotFoundError "run/throughput_per_egress.csv") ValueError_class = false.
Proof.
  split; [|by vm_compute].
  eexists. split; [by vm_compute|]. compute_done.
Qed.

(** C6, amended.  For a file that parses as a table without a [t] column
    the read succeeds and the run fails at the chart constructor, with
    [ValueError], the world left as it was.  A missing file fails with
    [FileNotFoundError], and the two exceptions share no class but
    [Exception]. *)
Theorem missing_t_fails_in_chart L path w txt df :
  files w !! file path = Some txt → parse_csv L txt = inr df →
  "t" ∉ df_keys df →
  read_csv L (file path) w = (w, inr df) ∧
  plot L path w = (w, inl ValueError) ∧
  (∀ w0, files w0 !! file path = None →
         plot L path w0 = (w0, inl (FileNotFoundError (file path)))) ∧
  (∀ c, isinstance ValueError c = true →
        isinstance (FileNotFoundError (file path)) c = true → c = Exception_class).
Proof.
  intros Htxt Hdf Ht. split; [apply read_csv_inr; eauto|]. split; [|split].
  - apply plot_fails_before_write. unfold chart, read_csv. cbn [files].
    rewrite Htxt, Hdf. by apply px_line_x.
  - intros w0 Hnone. apply plot_fails_before_write.
    unfold chart, read_csv. cbn [files]. by rewrite Hnone.
  - intros c. by destruct c.
Qed.

Lemma missing_t_fails_in_chart_no_t :
  plot (simple_libs ∅) "run" (world_of text_no_t) = (world_of text_no_t, inl ValueError).
Proof.
  assert (files (world_of text_no_t) !! file "run" = Some text_no_t) as Htxt
    by (vm_compute; reflexivity).
  assert (parse_csv (simple_libs ∅) text_no_t
          = inr {| df_columns := [("Sum", ["30"]); ("violations", ["0"]);
                                  ("A", ["10"])] |}) as Hdf
    by (vm_compute; reflexivity).
  assert ("t" ∉ df_keys {| df_columns := [("Sum", ["30"]); ("violations", ["0"]);
                                          ("A", ["10"])] |}) as Ht
    by compute_done.
  exact (proj1 (proj2 (missing_t_fails_in_chart _ _ _ _ _ Htxt Hdf Ht))).
Defined.





(** C8.  After a run that succeeds, a second run on the same directory,
    with the same parser and chart constructor, reads the same table and
    builds the same figure, with the same traces in the same order (the
    file written is not the file read); when it succeeds too, the plot
    holds its document of that figure and every other file is as it was
    before the first run. *)
Theorem plot_twice L L' path w w1 :
  parse_csv L' = parse_csv L → px_line L' = px_line L →
  plot L path w = (w1, inr tt) →
  ∃ fig,
    chart L path (files w) = inr fig ∧
    chart L' path (files w1) = inr fig ∧
    (∀ w2, plot L' path w1 = (w2, inr tt) →
           files w2 = <[plot_file path := to_html L' fig]> (files w) ∧
           stdout w2 = stdout w1 ++ ["Written plot to " +:+ plot_file path]).
Proof.
  intros Hp Hx (fig & Hc & Hfiles & Hout)%plot_inr. exists fig.
  assert (chart L' path (files w1) = inr fig) as Hc1.
  { by rewrite (chart_same_libraries L L'), Hfiles, chart_after_write. }
  split; [done|]. split; [done|].
  intros w2 (fig2 & Hc2 & Hfiles2 & Hout2)%plot_inr.
  assert (fig2 = fig) as -> by congruence.
  split; [|done]. rewrite Hfiles2, Hfiles. apply insert_insert_eq.
Qed.

Lemma plot_twice_scenario_A :
  let w1 := (plot (simple_libs ∅) "run" (world_of text_A)).1 in
  ∃ fig,
    chart (simple_libs ∅) "run" (files (world_of text_A)) = inr fig ∧
    chart (rerun_libs "2") "run" (files w1) = inr fig ∧
    trace_names fig = ["Sum"; "violations"; "A"; "B"; "C"].
Proof.
  intros w1.
  assert (plot (simple_libs ∅) "run" (world_of text_A) = (w1, inr tt)) as Hrun
    by (vm_compute; reflexivity).
  destruct (plot_twice (simple_libs ∅) (rerun_libs "2") _ _ _ eq_refl eq_refl Hrun)
    as (fig & Hc & Hc1 & _).
  exists fig. repeat split; [done|done|].
  vm_compute in Hc. by injection Hc as <-.
Defined.

(** C9.  A run that succeeds on the directory [path] has read
    [throughput_per_egress.csv] and written [plot_testbed.html] in one and
    the same directory: afterwards that path holds the document of the
    figure whatever it held before, no other file has changed, and the line
    printed names that path. *)
Theorem plot_written_next_to_input L path w w' :
  plot L path w = (w', inr tt) →
  file path = joined_dir path +:+ "throughput_per_egress.csv" ∧
  plot_file path = joined_dir path +:+ "plot_testbed.html" ∧
  ∃ fig,
    chart L path (files w) = inr fig ∧
    files w' = <[plot_file path := to_html L fig]> (files w) ∧
    files w' !! plot_file path = Some (to_html L fig) ∧
    (∀ p, p ≠ plot_file path → files w' !! p = files w !! p) ∧
    stdout w' = stdout w ++ ["Written plot to " +:+ plot_file path].
Proof.
  intros (fig & Hc & Hfiles & Hout)%plot_inr.
  split; [apply file_in_dir|]. split; [apply plot_file_in_dir|].
  exists fig. rewrite Hfiles. repeat split; try done.
  - apply lookup_insert_eq.
  - intros p Hp. by apply lookup_insert_ne.
Qed.

Lemma plot_written_next_to_input_overwrites :
  let w := {| files := {[ "run/throughput_per_egress.csv" := text_A;
                          "run/plot_testbed.html" := "old" ]};
              stdout := [] |} in
  let w' := (plot (simple_libs ∅) "run" w).1 in
  files w' !! "run/plot_testbed.html"
    = Some "<html>t:Sum,violations,A,B,C</html>" ∧
  stdout w' = ["Written plot to run/plot_testbed.html"].
Proof.
  intros w w'.
  assert (plot (simple_libs ∅) "run" w = (w', inr tt)) as Hrun
    by (vm_compute; reflexivity).
  destruct (plot_written_next_to_input _ _ _ _ Hrun)
    as (_ & _ & fig & Hc & _ & Hlook & _ & Hout).
  split; [|exact Hout].
  vm_compute in Hc. injection Hc as <-. exact Hlook.
Defined.

(** * Further properties of the script *)



(** X4.  A run that succeeds leaves its input file as it was: the path it
    writes is never the path it has read. *)
Theorem input_file_untouched L path w w' :
  plot L path w = (w', inr tt) →
  plot_file path ≠ file path ∧ files w' !! file path = files w !! file path.
Proof.
  intros (fig & _ & Hfiles & _)%plot_inr.
  split; [apply plot_file_not_file|].
  rewrite Hfiles. apply lookup_insert_ne, plot_file_not_file.
Qed.

Lemma input_file_untouched_scenario_A :
  files (plot (simple_libs ∅) "run" (world_of text_A)).1 !! file "run" = Some text_A.
Proof.
  assert (plot (simple_libs ∅) "run" (world_of text_A)
          = ((plot (simple_libs ∅) "run" (world_of text_A)).1, inr tt)) as Hrun
    by (vm_compute; reflexivity).
  rewrite (proj2 (input_file_untouched _ _ _ _ Hrun)).
  vm_compute. reflexivity.
Defined.

(** X5.  The series names are exactly [Sum], [violations] and the column
    labels of the table, without [t]: every column but [t] is asked for, and
    nothing else than a column or one of the two literals. *)
Theorem keys_membership (df : DataFrame) (k : string) :
  k ∈ keys df ↔ k ≠ "t" ∧ (k = "Sum" ∨ k = "violations" ∨ k ∈ df_keys df).
Proof.
  rewrite elem_of_keys. split.
  - intros [->|[->|[Hk Hn]]]; [by auto|by auto|].
    split; [|by auto]. intros ->. apply Hn, elem_of_excluded. by left.
  - intros [Ht [->|[->|Hk]]]; [by left|by right; left|].
    destruct (decide (k = "Sum")) as [->|Hs]; [by left|].
    destruct (decide (k = "violations")) as [->|Hv]; [by right; left|].
    right. right. split; [done|]. rewrite elem_of_excluded. tauto.
Qed.

(** X6.  The number of series names is the number of columns, less the
    columns labelled [t], [Sum] or [violations], plus the two literals; so
    there are at least two names and at most two more than columns. *)
Theorem keys_length (df : DataFrame) :
  length (keys df) + length (filter (λ k, k ∈ excluded) (df_keys df))
  = length (df_keys df) + 2 ∧
  (2 ≤ length (keys df) ≤ length (df_keys df) + 2)%nat.
Proof.
  assert (length (remaining_keys df)
          + length (filter (λ k, k ∈ excluded) (df_keys df))
          = length (df_keys df)) as Hlen.
  { unfold remaining_keys. rewrite <- length_app.
    rewrite <- (Permutation_length
                  (filter_app_complement (λ k : string, k ∉ excluded) (df_keys df))).
    rewrite !length_app. f_equal. f_equal.
    apply list_filter_iff. intros k. split; [tauto|apply dec_stable]. }
  unfold keys. simpl. lia.
Qed.

(** X7.  When the whole script succeeds, the directory answered by
    [select_measurement] (asked for a directory that contains
    [throughput_per_egress.csv]) is the one whose table was read and in
    which the plot was written, and the line printed names that plot. *)
Theorem main_written L select_measurement w w' :
  main L select_measurement w = (w', inr tt) →
  ∃ path w0 fig,
    select_measurement "throughput_per_egress.csv" w = (w0, inr path) ∧
    chart L path (files w0) = inr fig ∧
    files w' = <[plot_file path := to_html L fig]> (files w0) ∧
    stdout w' = stdout w0 ++ ["Written plot to " +:+ plot_file path].
Proof.
  intros (path & w0 & Hsel & Hrun)%main_inr.
  apply plot_inr in Hrun as (fig & Hc & Hfiles & Hout). eauto 10.
Qed.

Lemma main_written_scenario_A :
  let select := λ (_ : string) (w : World), (w, inr "run") in
  stdout (main (simple_libs ∅) select (world_of text_A)).1
  = ["Written plot to run/plot_testbed.html"].
Proof.
  intros select.
  assert (main (simple_libs ∅) select (world_of text_A)
          = ((main (simple_libs ∅) select (world_of text_A)).1, inr tt)) as Hrun
    by (vm_compute; reflexivity).
  destruct (main_written _ _ _ _ Hrun) as (path & w0 & fig & Hsel & _ & _ & Hout).
  injection Hsel as <- <-. exact Hout.
Defined.

Lemma endswith_sep_app_sep path : endswith_sep (path +:+ sep) = true.
Proof.
  induction path as [|c path IH]; [done|].
  change (endswith_sep (String c (path +:+ sep)) = true).
  destruct path as [|c' path]; [done|]. exact IH.
Qed.

(** X8.  A measurement directory given with a trailing separator names the
    same input and output files, so the run is the same. *)
Theorem trailing_separator_irrelevant L path w :
  path ≠ "" → endswith_sep path = false →
  file (path +:+ sep) = file path ∧
  plot_file (path +:+ sep) = plot_file path ∧
  plot L (path +:+ sep) w = plot L path w.
Proof.
  intros Hne Hend.
  assert (joined_dir (path +:+ sep) = joined_dir path) as Hdir.
  { unfold joined_dir. rewrite endswith_sep_app_sep, orb_true_r, Hend.
    by rewrite bool_decide_eq_false_2. }
  assert (file (path +:+ sep) = file path) as Hf.
  { by rewrite !file_in_dir, Hdir. }
  assert (plot_file (path +:+ sep) = plot_file path) as Hp.
  { by rewrite !plot_file_in_dir, Hdir. }
  split; [done|]. split; [done|]. by rewrite !plot_unfold, Hp; unfold chart; rewrite Hf.
Qed.

Lemma trailing_separator_irrelevant_run :
  file "run/" = "run/throughput_per_egress.csv" ∧
  plot (simple_libs ∅) "run/" (world_of text_A)
  = plot (simple_libs ∅) "run" (world_of text_A).
Proof.
  assert ("run" ≠ "") as Hne by done.
  assert (endswith_sep "run" = false) as Hend by reflexivity.
  destruct (trailing_separator_irrelevant (simple_libs ∅) "run" (world_of text_A)
              Hne Hend) as (Hf & _ & Hrun).
  split; [exact Hf|exact Hrun].
Defined.

